(** * GTCX TradeDesk: the Ecosystem Gateway and the trading core

    The development has two parts.

    - [Gateway] embeds the class [GTCXEcosystemIntegration] of
      [src/integration/gtcx-ecosystem.ts]: its configuration records, its
      [connect] method, the three connection probes and the four capability
      getters, over a small model of the JavaScript features they use
      (exceptions with [try]/[catch], [console.warn], [Math.random],
      [new Date], optional chaining and truthiness).

    - [TradingCore] models the order lifecycle and the portfolio ledger.  The
      engine's source ([src/core/simple-trading-engine.ts]) is missing, only
      its callers are at hand, so these definitions follow the written
      specification and say so. *)

From Stdlib Require Import QArith Lqa ZArith.
From stdpp Require Import gmap strings list fin_maps.

Local Open Scope string_scope.

(** ** A small model of the JavaScript runtime *)

Module Js.

(** A value of TypeScript type [any]. *)
#[local] Unset Elimination Schemes.
Inductive JsValue : Type :=
| JsUndefined
| JsNull
| JsBool (b : bool)
| JsNumber (q : Q)
| JsString (s : string)
| JsArray (items : list JsValue)
| JsObject (fields : list (string * JsValue)).
#[local] Set Elimination Schemes.

(** What [catch (error)] binds: the thrown value. *)
Definition JsError : Type := JsValue.

(** How the evaluation of a statement ends: with a value, or with a throw. *)
Inductive Completion (A : Type) : Type :=
| Normal (a : A)
| Throw (e : JsError).
Arguments Normal {A} a.
Arguments Throw {A} e.

(** [new Date()] is read as the clock's milliseconds since the epoch. *)
Definition Date : Type := Z.

(** The readings the host gives during one call: what [Math.random()]
    yields (a number in the half-open unit interval, numbers being taken
    as exact rationals) and what [new Date()] reads. *)
Record Host : Type := { random : Q; now : Date }.

(** [Math.random()] promises [0 <= x < 1]. *)
Definition random_in_range (h : Host) : Prop := (0 <= random h /\ random h < 1)%Q.

(** Truthiness of [o?.flag], which is [undefined] when [o] is absent. *)
Definition truthy (v : option bool) : bool := default false v.

Section Effects.
(** [S] is the mutable store a method runs against.  A store change made
    before a throw stays: the store is returned in both completions. *)
Context {S : Type}.

Definition Eff (A : Type) : Type := S -> Completion A * S.

Definition ret {A} (a : A) : Eff A := fun s => (Normal a, s).

Definition bind {A B} (m : Eff A) (k : A -> Eff B) : Eff B :=
  fun s =>
    match m s with
    | (Normal a, s') => k a s'
    | (Throw e, s') => (Throw e, s')
    end.

Definition throw {A} (e : JsError) : Eff A := fun s => (Throw e, s).

(** [try { body } catch (error) { handler }] *)
Definition try_catch {A} (body : Eff A) (handler : JsError -> Eff A) : Eff A :=
  fun s =>
    match body s with
    | (Normal a, s') => (Normal a, s')
    | (Throw e, s') => handler e s'
    end.

Definition get : Eff S := fun s => (Normal s, s).
Definition modify (f : S -> S) : Eff unit := fun s => (Normal tt, f s).

(** [if (c) { m }] *)
Definition when (c : bool) (m : Eff unit) : Eff unit := if c then m else ret tt.
End Effects.

Arguments Eff S A : clear implicits.

(** Sequencing is written with stdpp's monad notation:
    [x ← m; k] and [m;; k]. *)
#[export] Instance eff_ret {S} : MRet (Eff S) := @ret S.
#[export] Instance eff_bind {S} : MBind (Eff S) := fun A B k m => bind m k.

End Js.

Import Js.

(** ** The Ecosystem Gateway: [GTCXEcosystemIntegration] *)

Module Gateway.

(** The shape shared by the [ai], [compliance] and [security] sections. *)
Record ServiceConfig : Type := {
  enabled : bool;
  endpoint : option string;
  apiKey : option string
}.

Record GlobalSouthConfig : Type := {
  offlineMode : bool;
  lowBandwidth : bool;
  localCaching : bool
}.

(** Every section is optional ([ai?:], [compliance?:], ...). *)
Record GTCXConfig : Type := {
  ai : option ServiceConfig;
  compliance : option ServiceConfig;
  security : option ServiceConfig;
  globalSouth : option GlobalSouthConfig
}.

Record GTCXAIResponse : Type := {
  riskScore : Q;
  confidence : Q;
  recommendations : list string;
  aiTimestamp : Date
}.

Record ComplianceChecks : Type := {
  kyc : bool;
  aml : bool;
  trading : bool;
  risk : bool
}.

Record GTCXComplianceResult : Type := {
  compliant : bool;
  checks : ComplianceChecks;
  warnings : list string;
  complianceTimestamp : Date
}.

(** [riskLevel] is a string at run time; its TypeScript type is the union
    ['low' | 'medium' | 'high']. *)
Record GTCXSecurityResult : Type := {
  authenticated : bool;
  permissions : list string;
  riskLevel : string;
  securityTimestamp : Date
}.

Definition riskLevels : list string := ["low"; "medium"; "high"].

(** The private fields of the class. *)
Record GTCXEcosystemIntegration : Type := {
  config : GTCXConfig;
  isConnected : bool
}.

(** [constructor(config)]: [isConnected] starts as [false]. *)
Definition new (cfg : GTCXConfig) : GTCXEcosystemIntegration :=
  {| config := cfg; isConnected := false |}.

(** What a method call can touch: the instance and the console. *)
Record Machine : Type := {
  this : GTCXEcosystemIntegration;
  console : list (string * JsError)
}.

Definition boot (cfg : GTCXConfig) : Machine :=
  {| this := new cfg; console := [] |}.

Abbreviation Eff := (Js.Eff Machine).

Definition getThis : Eff GTCXEcosystemIntegration :=
  m ← get; mret (this m).

(** [this.isConnected = b] *)
Definition setIsConnected (b : bool) : Eff unit :=
  modify (fun m =>
    {| this := {| config := config (this m); isConnected := b |};
       console := console m |}).

(** [console.warn(msg, error)] *)
Definition console_warn (msg : string) (error : JsError) : Eff unit :=
  modify (fun m => {| this := this m; console := console m ++ [(msg, error)] |}).

(** [await new Promise(resolve => setTimeout(resolve, ms))]: the promise is
    resolved by the timer and has no way to reject. *)
Definition awaitTimeout (ms : Z) : Eff unit := ret tt.

Definition testAIConnection : Eff unit := awaitTimeout 100.
Definition testComplianceConnection : Eff unit := awaitTimeout 100.
Definition testSecurityConnection : Eff unit := awaitTimeout 100.

Definition connect : Eff bool :=
  try_catch
    (self ← getThis;
     when (truthy (enabled <$> ai (config self))) testAIConnection;;
     when (truthy (enabled <$> compliance (config self))) testComplianceConnection;;
     when (truthy (enabled <$> security (config self))) testSecurityConnection;;
     setIsConnected true;;
     mret true)
    (fun error =>
       console_warn "GTCX ecosystem connection failed:" error;;
       setIsConnected false;;
       mret false).

(** *** The capability getters

    Each getter is first written with the expression its [try] block
    returns left open (the place where, as the source says, the real
    service would be called), and then closed with the mock response the
    source returns today. *)

Definition getAIRiskAssessmentVia (service : Eff GTCXAIResponse)
    (portfolioData : JsValue) : Eff (option GTCXAIResponse) :=
  self ← getThis;
  if negb (truthy (enabled <$> ai (config self))) || negb (isConnected self)
  then mret None
  else
    try_catch
      (r ← service; mret (Some r))
      (fun error => console_warn "AI risk assessment failed:" error;; mret None).

Definition mockAIResponse (host : Host) : Eff GTCXAIResponse :=
  ret {| riskScore := (random host * 100)%Q;
         confidence := 0.85%Q;
         recommendations :=
           [ "Consider diversifying your portfolio";
             "Monitor position sizes for risk management" ];
         aiTimestamp := now host |}.

Definition getAIRiskAssessment (host : Host) (portfolioData : JsValue)
    : Eff (option GTCXAIResponse) :=
  getAIRiskAssessmentVia (mockAIResponse host) portfolioData.

Definition getAITradeRecommendationsVia (service : Eff (list string))
    (userId : string) (marketData : JsValue) : Eff (option (list string)) :=
  self ← getThis;
  if negb (truthy (enabled <$> ai (config self))) || negb (isConnected self)
  then mret None
  else
    try_catch
      (r ← service; mret (Some r))
      (fun error => console_warn "AI trade recommendations failed:" error;; mret None).

Definition mockTradeRecommendations : Eff (list string) :=
  ret [ "Consider buying gold as a hedge";
        "Silver shows strong momentum";
        "Diversify into agricultural commodities" ].

Definition getAITradeRecommendations (userId : string) (marketData : JsValue)
    : Eff (option (list string)) :=
  getAITradeRecommendationsVia mockTradeRecommendations userId marketData.

Definition performGuardianComplianceVia (service : Eff GTCXComplianceResult)
    (userId : string) : Eff (option GTCXComplianceResult) :=
  self ← getThis;
  if negb (truthy (enabled <$> compliance (config self))) || negb (isConnected self)
  then mret None
  else
    try_catch
      (r ← service; mret (Some r))
      (fun error => console_warn "Guardian compliance check failed:" error;; mret None).

Definition mockComplianceResult (host : Host) : Eff GTCXComplianceResult :=
  ret {| compliant := true;
         checks := {| kyc := true; aml := true; trading := true; risk := true |};
         warnings := [];
         complianceTimestamp := now host |}.

Definition performGuardianCompliance (host : Host) (userId : string)
    : Eff (option GTCXComplianceResult) :=
  performGuardianComplianceVia (mockComplianceResult host) userId.

Definition getSecurityStatusVia (service : Eff GTCXSecurityResult)
    (userId : string) : Eff (option GTCXSecurityResult) :=
  self ← getThis;
  if negb (truthy (enabled <$> security (config self))) || negb (isConnected self)
  then mret None
  else
    try_catch
      (r ← service; mret (Some r))
      (fun error => console_warn "Security status check failed:" error;; mret None).

Definition mockSecurityResult (host : Host) : Eff GTCXSecurityResult :=
  ret {| authenticated := true;
         permissions := ["trade"; "withdraw"; "deposit"];
         riskLevel := "low";
         securityTimestamp := now host |}.

Definition getSecurityStatus (host : Host) (userId : string)
    : Eff (option GTCXSecurityResult) :=
  getSecurityStatusVia (mockSecurityResult host) userId.

(** [isOfflineModeSupported], [isLowBandwidthOptimized], [getConnectionStatus] *)
Definition isOfflineModeSupported : Eff bool :=
  self ← getThis; mret (truthy (offlineMode <$> globalSouth (config self))).

Definition isLowBandwidthOptimized : Eff bool :=
  self ← getThis; mret (truthy (lowBandwidth <$> globalSouth (config self))).

Definition getConnectionStatus : Eff bool :=
  self ← getThis; mret (isConnected self).

(** The configuration of the repository's full integration example. *)
Definition fullConfig : GTCXConfig :=
  {| ai := Some {| enabled := true; endpoint := Some "https://ai.gtcx.io";
                   apiKey := Some "your-ai-api-key" |};
     compliance := Some {| enabled := true; endpoint := Some "https://compliance.gtcx.io";
                           apiKey := Some "your-compliance-api-key" |};
     security := Some {| enabled := true; endpoint := Some "https://security.gTCX.io";
                         apiKey := Some "your-security-api-key" |};
     globalSouth := Some {| offlineMode := true; lowBandwidth := true;
                            localCaching := true |} |}.

(** A connected instance: [boot] followed by [connect]. *)
Definition connected (cfg : GTCXConfig) : Machine := snd (connect (boot cfg)).

Definition sampleHost : Host := {| random := 0.5%Q; now := 1700000000000%Z |}.

(** A capability is disabled when its section is absent or its flag is off. *)
Definition disabled (section : option ServiceConfig) : Prop :=
  section = None \/ exists c, section = Some c /\ enabled c = false.

(** A getter absorbs the failures of the service it calls: it never throws,
    and it answers [null] whenever the service call throws. *)
Definition absorbs {A : Type} (getter : Eff A -> Eff (option A)) : Prop :=
  forall (service : Eff A) (m : Machine),
    (exists r m', getter service m = (Normal r, m')) /\
    (forall e m1, service m = (Throw e, m1) ->
       exists m', getter service m = (Normal None, m')).

(** The machine after a successful [connect]. *)
Definition markConnected (m : Machine) : Machine :=
  {| this := {| config := config (this m); isConnected := true |};
     console := console m |}.

(** A configuration with every capability switched off or missing. *)
Definition allOffConfig : GTCXConfig :=
  {| ai := Some {| enabled := false; endpoint := Some "https://ai.gtcx.io"; apiKey := None |};
     compliance := None;
     security := Some {| enabled := false; endpoint := None; apiKey := None |};
     globalSouth := None |}.

(** A service call that fails, as a network client would on a timeout. *)
Definition failingService {A : Type} : Eff A := throw (JsString "ETIMEDOUT").

Definition sampleAIResponse : GTCXAIResponse :=
  {| riskScore := (0.5 * 100)%Q; confidence := 0.85%Q;
     recommendations := [ "Consider diversifying your portfolio";
                          "Monitor position sizes for risk management" ];
     aiTimestamp := 1700000000000%Z |}.

(** The full configuration with only [ai.enabled] switched off. *)
Definition fullConfigAiOff : GTCXConfig :=
  {| ai := Some {| enabled := false; endpoint := Some "https://ai.gtcx.io";
                   apiKey := Some "your-ai-api-key" |};
     compliance := compliance fullConfig;
     security := security fullConfig;
     globalSouth := globalSouth fullConfig |}.

Definition sampleComplianceResult : GTCXComplianceResult :=
  {| compliant := true;
     checks := {| kyc := true; aml := true; trading := true; risk := true |};
     warnings := [];
     complianceTimestamp := 1700000000000%Z |}.

End Gateway.

(** ** The trading core: order lifecycle and portfolio ledger *)

Module TradingCore.

Inductive Side : Type := buy | sell.

Inductive OrderStatus : Type := pending | executed | cancelled.

#[export] Instance OrderStatus_eq_dec : EqDecision OrderStatus.
Proof. solve_decision. Defined.

(** The error kinds of the specification's section 7. *)
Inductive TradingError : Type :=
| UserNotFound
| OrderNotFound
| InvalidOrderState
| InvalidQuantity
| InvalidPrice
| InsufficientPosition.

(** An operation either returns a value or fails with one of the errors. *)
Inductive Result (A : Type) : Type :=
| Ok (a : A)
| Err (e : TradingError).
Arguments Ok {A} a.
Arguments Err {A} e.

(** The records of the data model (section 3), one module each so that the
    fields keep their names.  Quantities and money are exact rationals, as
    the specification asks for decimal arithmetic without rounding drift. *)

Module User.
Record t : Type := { id : string; name : string; email : string; createdAt : Date }.
End User.

Module Order.
Record t : Type := {
  id : nat;
  userId : string;
  symbol : string;
  side : Side;
  quantity : Q;
  limitPrice : Q;
  status : OrderStatus;
  createdAt : Date;
  executedAt : option Date
}.
End Order.

Module Trade.
Record t : Type := {
  id : nat;
  orderId : nat;
  executionPrice : Q;
  quantity : Q;
  executedAt : Date
}.
End Trade.

Module Position.
Record t : Type := { quantity : Q; averageCost : Q }.
End Position.

Record Portfolio : Type := {
  positions : gmap string Position.t;
  cashBalance : Q;
  realizedPnL : Q
}.

(** *** Portfolio Ledger *)

(** Modelled from the spec: the portfolio of a user with no trade yet.  The
    ledger's source is missing; section 3 derives the portfolio from the
    executed trades alone and makes the cash balance the sum of the signed
    trade cash flows, so it starts with no position, no cash and no P&L. *)
Definition emptyPortfolio : Portfolio :=
  {| positions := ∅; cashBalance := 0; realizedPnL := 0 |}.

(** Modelled from the spec: a symbol never traded is held at quantity zero
    (the ledger's source is missing; section 4.2 reads [oldQty] and
    [oldAvgCost] of the position keyed by user and symbol). *)
Definition emptyPosition : Position.t :=
  {| Position.quantity := 0; Position.averageCost := 0 |}.

Definition portfolioOf (ledger : gmap string Portfolio) (userId : string) : Portfolio :=
  default emptyPortfolio (ledger !! userId).

Definition positionOf (ledger : gmap string Portfolio) (userId symbol : string)
  : Position.t :=
  default emptyPosition (positions (portfolioOf ledger userId) !! symbol).

(** Modelled from the spec: [applyTrade] of the Portfolio Ledger, whose
    source ([simple-trading-engine.ts]) is missing.  Section 4.2: a buy sets
    [newQty = oldQty + quantity] and the weighted average cost
    [(oldQty*oldAvgCost + quantity*executionPrice) / newQty], or
    [executionPrice] when [oldQty == 0], and takes [quantity*executionPrice]
    from the cash; a sell fails with [InsufficientPosition] if
    [quantity > oldQty] (short selling is off by default), otherwise sets
    [newQty = oldQty - quantity], adds [(executionPrice - oldAvgCost) *
    quantity] to the realized P&L and [quantity*executionPrice] to the cash,
    and keeps [averageCost].  A failure leaves all state unchanged
    (section 7).  The ledger goes in and comes out beside the result. *)
Definition applyTrade (ledger : gmap string Portfolio) (userId symbol : string)
    (side : Side) (quantity executionPrice : Q)
  : Result unit * gmap string Portfolio :=
  let pf := portfolioOf ledger userId in
  let old := positionOf ledger userId symbol in
  let oldQty := Position.quantity old in
  let oldAvgCost := Position.averageCost old in
  match side with
  | buy =>
      let newQty := (oldQty + quantity)%Q in
      let newAvgCost :=
        if Qeq_bool oldQty 0 then executionPrice
        else ((oldQty * oldAvgCost + quantity * executionPrice) / newQty)%Q in
      (Ok tt,
       <[userId :=
           {| positions :=
                <[symbol := {| Position.quantity := newQty;
                               Position.averageCost := newAvgCost |}]> (positions pf);
              cashBalance := (cashBalance pf - quantity * executionPrice)%Q;
              realizedPnL := realizedPnL pf |}]> ledger)
  | sell =>
      if negb (Qle_bool quantity oldQty) then (Err InsufficientPosition, ledger)
      else
        let newQty := (oldQty - quantity)%Q in
        (Ok tt,
         <[userId :=
             {| positions :=
                  <[symbol := {| Position.quantity := newQty;
                                 Position.averageCost := oldAvgCost |}]> (positions pf);
                cashBalance := (cashBalance pf + quantity * executionPrice)%Q;
                realizedPnL :=
                  (realizedPnL pf + (executionPrice - oldAvgCost) * quantity)%Q |}]> ledger)
  end.

(** *** Order Lifecycle Manager *)

(** Modelled from the spec: the state the engine owns (design note of
    section 9: an explicitly owned store instead of global maps; the engine's
    source is missing).  Order and trade identifiers are unique (section 3):
    they are drawn from two counters.  Trades are kept in execution order,
    appended and never changed (History Store, section 4.3). *)
Record Engine : Type := {
  users : gmap string User.t;
  orders : gmap nat Order.t;
  trades : list Trade.t;
  portfolios : gmap string Portfolio;
  nextOrderId : nat;
  nextTradeId : nat
}.

Definition emptyEngine : Engine :=
  {| users := ∅; orders := ∅; trades := []; portfolios := ∅;
     nextOrderId := 0; nextTradeId := 0 |}.

(** Modelled from the spec: what [createUser] and [updateUser] may change,
    the User Registry and nothing else (their source is missing). *)
Definition withUsers (registry : gmap string User.t) (s : Engine) : Engine :=
  {| users := registry; orders := orders s; trades := trades s;
     portfolios := portfolios s; nextOrderId := nextOrderId s;
     nextTradeId := nextTradeId s |}.

(** Modelled from the spec: [placeOrder] (section 4.1; source missing).
    Fails with [UserNotFound] if the user is unknown, [InvalidQuantity] if
    [quantity <= 0], [InvalidPrice] if [limitPrice <= 0]; otherwise creates
    the order in state [pending]. *)
Definition placeOrder (now : Date) (userId symbol : string) (side : Side)
    (quantity limitPrice : Q) (s : Engine) : Result Order.t * Engine :=
  match users s !! userId with
  | None => (Err UserNotFound, s)
  | Some _ =>
      if Qle_bool quantity 0 then (Err InvalidQuantity, s)
      else if Qle_bool limitPrice 0 then (Err InvalidPrice, s)
      else
        let order :=
          {| Order.id := nextOrderId s; Order.userId := userId;
             Order.symbol := symbol; Order.side := side;
             Order.quantity := quantity; Order.limitPrice := limitPrice;
             Order.status := pending; Order.createdAt := now;
             Order.executedAt := None |} in
        (Ok order,
         {| users := users s;
            orders := <[nextOrderId s := order]> (orders s);
            trades := trades s;
            portfolios := portfolios s;
            nextOrderId := S (nextOrderId s);
            nextTradeId := nextTradeId s |})
  end.

(** The order once executed at time [now]: only [status] and [executedAt]
    change. *)
Definition markExecuted (now : Date) (o : Order.t) : Order.t :=
  {| Order.id := Order.id o; Order.userId := Order.userId o;
     Order.symbol := Order.symbol o; Order.side := Order.side o;
     Order.quantity := Order.quantity o; Order.limitPrice := Order.limitPrice o;
     Order.status := executed; Order.createdAt := Order.createdAt o;
     Order.executedAt := Some now |}.

Definition markCancelled (o : Order.t) : Order.t :=
  {| Order.id := Order.id o; Order.userId := Order.userId o;
     Order.symbol := Order.symbol o; Order.side := Order.side o;
     Order.quantity := Order.quantity o; Order.limitPrice := Order.limitPrice o;
     Order.status := cancelled; Order.createdAt := Order.createdAt o;
     Order.executedAt := Order.executedAt o |}.

(** Modelled from the spec: [executeTrade] (section 4.1; source missing).
    Fails with [OrderNotFound] if the order is unknown, [InvalidOrderState]
    if it is not [pending], [InvalidPrice] if [executionPrice <= 0]; it
    then applies the trade to the ledger, and a ledger failure fails the
    execution with all state unchanged (section 7).  On success the order
    becomes [executed] and one trade, with the order's quantity, is
    appended. *)
Definition executeTrade (now : Date) (orderId : nat) (executionPrice : Q)
    (s : Engine) : Result Trade.t * Engine :=
  match orders s !! orderId with
  | None => (Err OrderNotFound, s)
  | Some o =>
      if negb (bool_decide (Order.status o = pending)) then (Err InvalidOrderState, s)
      else if Qle_bool executionPrice 0 then (Err InvalidPrice, s)
      else
        match applyTrade (portfolios s) (Order.userId o) (Order.symbol o)
                (Order.side o) (Order.quantity o) executionPrice with
        | (Err e, _) => (Err e, s)
        | (Ok _, ledger) =>
            let trade :=
              {| Trade.id := nextTradeId s; Trade.orderId := orderId;
                 Trade.executionPrice := executionPrice;
                 Trade.quantity := Order.quantity o;
                 Trade.executedAt := now |} in
            (Ok trade,
             {| users := users s;
                orders := <[orderId := markExecuted now o]> (orders s);
                trades := trades s ++ [trade];
                portfolios := ledger;
                nextOrderId := nextOrderId s;
                nextTradeId := S (nextTradeId s) |})
        end
  end.

(** Modelled from the spec: [cancelOrder] (sections 4.1, 7 and 8; source
    missing).  Fails with [OrderNotFound] if the order is unknown; returns
    [true] when the order was [pending] and is now [cancelled]; returns
    [false] on an order already cancelled; on an executed order it fails
    with [InvalidOrderState] (sections 7 and 8; section 4.1 read alone would
    return [false] there).  Nothing changes unless it returns [true]. *)
Definition cancelOrder (orderId : nat) (s : Engine) : Result bool * Engine :=
  match orders s !! orderId with
  | None => (Err OrderNotFound, s)
  | Some o =>
      match Order.status o with
      | pending =>
          (Ok true,
           {| users := users s;
              orders := <[orderId := markCancelled o]> (orders s);
              trades := trades s;
              portfolios := portfolios s;
              nextOrderId := nextOrderId s;
              nextTradeId := nextTradeId s |})
      | cancelled => (Ok false, s)
      | executed => (Err InvalidOrderState, s)
      end
  end.

(** One public operation takes the engine from one state to the next. *)
Inductive step : Engine -> Engine -> Prop :=
| step_registry (registry : gmap string User.t) (s : Engine) :
    step s (withUsers registry s)
| step_placeOrder (now : Date) (userId symbol : string) (side : Side)
    (quantity limitPrice : Q) (s : Engine) :
    step s (placeOrder now userId symbol side quantity limitPrice s).2
| step_executeTrade (now : Date) (orderId : nat) (executionPrice : Q) (s : Engine) :
    step s (executeTrade now orderId executionPrice s).2
| step_cancelOrder (orderId : nat) (s : Engine) :
    step s (cancelOrder orderId s).2.

(** The states the engine can be in: those the operations lead to from the
    empty engine. *)
Inductive reachable : Engine -> Prop :=
| reachable_empty : reachable emptyEngine
| reachable_step (s s' : Engine) : reachable s -> step s s' -> reachable s'.

(** The two legal status changes. *)
Inductive transition : OrderStatus -> OrderStatus -> Prop :=
| transition_execute : transition pending executed
| transition_cancel : transition pending cancelled.

(** The trades recorded for an order. *)
Definition tradesOf (orderId : nat) (s : Engine) : list Trade.t :=
  filter (fun t => Trade.orderId t = orderId) (trades s).

(** A ledger in which user u1 holds 100 GOLD bought at 10. *)
Definition goldLedger : gmap string Portfolio :=
  (applyTrade ∅ "u1" "GOLD" buy 100 10).2.

(** The number of trades an order should have: one once executed, none
    before, none if cancelled, none for an identifier not in use. *)
Definition expectedTrades (o : option Order.t) : nat :=
  match o with
  | Some o => if bool_decide (Order.status o = executed) then 1 else 0
  | None => 0
  end.

(** The invariant of the engine: identifiers in use are below the counter,
    and every identifier has the trades it should have. *)
Definition consistent (s : Engine) : Prop :=
  (forall id o, orders s !! id = Some o -> id < nextOrderId s) /\
  (forall id, length (tradesOf id s) = expectedTrades (orders s !! id)).

(** What one operation may do to an order already placed. *)
Definition moves_legally (o o' : Order.t) : Prop :=
  (Order.status o' = Order.status o \/ transition (Order.status o) (Order.status o')) /\
  (Order.status o <> pending -> o' = o).

(** The end-to-end scenario of the specification: user u1 is registered,
    places a buy of 100 GOLD at 1950.50, and the order is executed at that
    price. *)
Definition jane : User.t :=
  {| User.id := "u1"; User.name := "Jane Doe"; User.email := "jane@x.com";
     User.createdAt := 0%Z |}.

Definition registered : Engine := withUsers {[ "u1" := jane ]} emptyEngine.

Definition placed : Engine := (placeOrder 1%Z "u1" "GOLD" buy 100 1950.50 registered).2.

Definition traded : Engine := (executeTrade 2%Z 0 1950.50 placed).2.

End TradingCore.

(** ** The gateway beyond its mock services

    [connect] is written here with its three private probes left open, as
    the getters are with their service calls, so that its [catch] branch can
    be exercised; and the public methods are gathered into calls, so that
    whole sessions against one instance can be described. *)

Module GatewayExt.
Import Gateway.

(** [connect] with the bodies of [testAIConnection],
    [testComplianceConnection] and [testSecurityConnection] left open.
    [this.config] is read anew at each [if], after the probes before it. *)
Definition connectVia (probeAI probeCompliance probeSecurity : Eff unit) : Eff bool :=
  try_catch
    (self ← getThis;
     when (truthy (enabled <$> ai (config self))) probeAI;;
     self ← getThis;
     when (truthy (enabled <$> compliance (config self))) probeCompliance;;
     self ← getThis;
     when (truthy (enabled <$> security (config self))) probeSecurity;;
     setIsConnected true;;
     mret true)
    (fun error =>
       console_warn "GTCX ecosystem connection failed:" error;;
       setIsConnected false;;
       mret false).

(** One guarded probe of [connect]: [if (this.config.X?.enabled) await probe]. *)
Definition stage (section : GTCXConfig -> option ServiceConfig) (probe : Eff unit)
  : Eff unit :=
  self ← getThis; when (truthy (enabled <$> section (config self))) probe.

(** The machine once [console.warn(msg, error)] has run. *)
Definition logged (msg : string) (error : JsError) (m : Machine) : Machine :=
  {| this := this m; console := console m ++ [(msg, error)] |}.

(** The machine after the [catch] branch of [connect]. *)
Definition markFailed (error : JsError) (m : Machine) : Machine :=
  {| this := {| config := config (this m); isConnected := false |};
     console := console m ++ [("GTCX ecosystem connection failed:", error)] |}.

(** Whether a getter of the given section would pass its guard. *)
Definition switchedOn (section : GTCXConfig -> option ServiceConfig) (m : Machine) : bool :=
  truthy (enabled <$> section (config (this m))) && isConnected (this m).

(** The contract of a getter around its service call: with the switch off
    the service is not called at all; with it on, a result is handed through
    and a throw is turned into [null] with one warning. *)
Definition guards {A : Type} (section : GTCXConfig -> option ServiceConfig)
    (msg : string) (getter : Eff A -> Eff (option A)) : Prop :=
  forall (service : Eff A) (m : Machine),
    (switchedOn section m = false -> getter service m = (Normal None, m)) /\
    (switchedOn section m = true ->
     forall r m1, service m = (Normal r, m1) -> getter service m = (Normal (Some r), m1)) /\
    (switchedOn section m = true ->
     forall e m1, service m = (Throw e, m1) ->
       getter service m = (Normal None, logged msg e m1)).

(** A call of one public method of the class. *)
Inductive Call : Type :=
| Connect
| GetAIRiskAssessment (host : Host) (portfolioData : JsValue)
| GetAITradeRecommendations (userId : string) (marketData : JsValue)
| PerformGuardianCompliance (host : Host) (userId : string)
| GetSecurityStatus (host : Host) (userId : string)
| IsOfflineModeSupported
| IsLowBandwidthOptimized
| GetConnectionStatus.

(** The machine a call leaves behind. *)
Definition after (c : Call) (m : Machine) : Machine :=
  match c with
  | Connect => (connect m).2
  | GetAIRiskAssessment host portfolioData => (getAIRiskAssessment host portfolioData m).2
  | GetAITradeRecommendations userId marketData =>
      (getAITradeRecommendations userId marketData m).2
  | PerformGuardianCompliance host userId => (performGuardianCompliance host userId m).2
  | GetSecurityStatus host userId => (getSecurityStatus host userId m).2
  | IsOfflineModeSupported => (isOfflineModeSupported m).2
  | IsLowBandwidthOptimized => (isLowBandwidthOptimized m).2
  | GetConnectionStatus => (getConnectionStatus m).2
  end.

(** A session: calls made one after the other against the same instance. *)
Definition session (calls : list Call) (m : Machine) : Machine :=
  foldl (fun m c => after c m) m calls.

Definition isConnect (c : Call) : bool :=
  match c with Connect => true | _ => false end.

(** A probe that fails, as a refused connection would. *)
Definition refusedProbe : Eff unit := throw (JsString "ECONNREFUSED").

(** A configuration with no section at all: [{}]. *)
Definition emptyConfig : GTCXConfig :=
  {| ai := None; compliance := None; security := None; globalSouth := None |}.

(** The mock values the getters build. *)
Definition aiAnswer (host : Host) : GTCXAIResponse :=
  {| riskScore := (random host * 100)%Q; confidence := 0.85%Q;
     recommendations := [ "Consider diversifying your portfolio";
                          "Monitor position sizes for risk management" ];
     aiTimestamp := now host |}.

Definition tradeAnswer : list string :=
  [ "Consider buying gold as a hedge";
    "Silver shows strong momentum";
    "Diversify into agricultural commodities" ].

Definition complianceAnswer (host : Host) : GTCXComplianceResult :=
  {| compliant := true;
     checks := {| kyc := true; aml := true; trading := true; risk := true |};
     warnings := []; complianceTimestamp := now host |}.

Definition securityAnswer (host : Host) : GTCXSecurityResult :=
  {| authenticated := true; permissions := ["trade"; "withdraw"; "deposit"];
     riskLevel := "low"; securityTimestamp := now host |}.

(** What a getter returns is decided by its switch alone. *)
Definition answer {A : Type} (on : bool) (a : A) : Completion (option A) :=
  if on then Normal (Some a) else Normal None.

Definition otherHost : Host := {| random := 0.25%Q; now := 1700000000000%Z |}.

(** An instance with no [endpoint] and no [apiKey], and a used console. *)
Definition bareMachine : Machine :=
  {| this := {| config :=
                  {| ai := None;
                     compliance := None;
                     security := Some {| enabled := true; endpoint := None;
                                         apiKey := None |};
                     globalSouth := None |};
                isConnected := true |};
     console := [("earlier warning", JsNull)] |}.

End GatewayExt.

(** ** Properties of the Ecosystem Gateway *)

Module GatewayProofs.
Import Gateway.

Lemma disabled_truthy (section : option ServiceConfig) :
  disabled section <-> truthy (enabled <$> section) = false.
Proof.
  unfold disabled, truthy. split.
  - intros [-> | (c & -> & Hc)]; simpl; auto.
  - destruct section as [c|]; simpl; intros H; [right | left]; eauto.
Qed.

Ltac unfold_eff :=
  unfold mbind, mret, eff_bind, eff_ret, bind, ret, try_catch, get, modify, when in *.

Ltac unfold_getters :=
  unfold getAIRiskAssessment, getAIRiskAssessmentVia, mockAIResponse,
    getAITradeRecommendations, getAITradeRecommendationsVia, mockTradeRecommendations,
    performGuardianCompliance, performGuardianComplianceVia, mockComplianceResult,
    getSecurityStatus, getSecurityStatusVia, mockSecurityResult, getThis in *;
  unfold_eff.

Lemma new_isConnected (cfg : GTCXConfig) : isConnected (new cfg) = false.
Proof. reflexivity. Qed.

Lemma connect_run (m : Machine) : connect m = (Normal true, markConnected m).
Proof.
  unfold connect, getThis, testAIConnection, testComplianceConnection,
    testSecurityConnection, awaitTimeout, setIsConnected, markConnected.
  unfold_eff.
  destruct (truthy (enabled <$> ai (config (this m))));
    destruct (truthy (enabled <$> compliance (config (this m))));
    destruct (truthy (enabled <$> security (config (this m)))); reflexivity.
Qed.

Lemma connected_eq (cfg : GTCXConfig) :
  connected cfg = {| this := {| config := cfg; isConnected := true |}; console := [] |}.
Proof. unfold connected. rewrite connect_run. reflexivity. Qed.

(** The guard shared by the four getters. *)
Lemma guard_closed (section : option ServiceConfig) (self : GTCXEcosystemIntegration) :
  truthy (enabled <$> section) = false \/ isConnected self = false ->
  negb (truthy (enabled <$> section)) || negb (isConnected self) = true.
Proof. intros [-> | ->]; simpl; auto using orb_true_r. Qed.

Lemma aiRisk_closed service data m :
  truthy (enabled <$> ai (config (this m))) = false \/ isConnected (this m) = false ->
  getAIRiskAssessmentVia service data m = (Normal None, m).
Proof. intros H. unfold_getters. now rewrite guard_closed. Qed.

Lemma aiTrade_closed service userId data m :
  truthy (enabled <$> ai (config (this m))) = false \/ isConnected (this m) = false ->
  getAITradeRecommendationsVia service userId data m = (Normal None, m).
Proof. intros H. unfold_getters. now rewrite guard_closed. Qed.

Lemma compliance_closed service userId m :
  truthy (enabled <$> compliance (config (this m))) = false \/ isConnected (this m) = false ->
  performGuardianComplianceVia service userId m = (Normal None, m).
Proof. intros H. unfold_getters. now rewrite guard_closed. Qed.

Lemma security_closed service userId m :
  truthy (enabled <$> security (config (this m))) = false \/ isConnected (this m) = false ->
  getSecurityStatusVia service userId m = (Normal None, m).
Proof. intros H. unfold_getters. now rewrite guard_closed. Qed.

(** When the guard is open the getter returns what its [try] block built. *)
Lemma aiRisk_open host data m :
  truthy (enabled <$> ai (config (this m))) = true -> isConnected (this m) = true ->
  getAIRiskAssessment host data m =
    (Normal (Some {| riskScore := (random host * 100)%Q; confidence := 0.85%Q;
                     recommendations := [ "Consider diversifying your portfolio";
                                          "Monitor position sizes for risk management" ];
                     aiTimestamp := now host |}), m).
Proof. intros H1 H2. unfold_getters. now rewrite H1, H2. Qed.

Lemma compliance_open host userId m :
  truthy (enabled <$> compliance (config (this m))) = true -> isConnected (this m) = true ->
  performGuardianCompliance host userId m =
    (Normal (Some {| compliant := true;
                     checks := {| kyc := true; aml := true; trading := true; risk := true |};
                     warnings := []; complianceTimestamp := now host |}), m).
Proof. intros H1 H2. unfold_getters. now rewrite H1, H2. Qed.

Lemma security_open host userId m :
  truthy (enabled <$> security (config (this m))) = true -> isConnected (this m) = true ->
  getSecurityStatus host userId m =
    (Normal (Some {| authenticated := true; permissions := ["trade"; "withdraw"; "deposit"];
                     riskLevel := "low"; securityTimestamp := now host |}), m).
Proof. intros H1 H2. unfold_getters. now rewrite H1, H2. Qed.

(** Either the guard is closed or both of its tests pass. *)
Lemma guard_cases (section : option ServiceConfig) (self : GTCXEcosystemIntegration) :
  (truthy (enabled <$> section) = false \/ isConnected self = false) \/
  (truthy (enabled <$> section) = true /\ isConnected self = true).
Proof.
  destruct (truthy (enabled <$> section)), (isConnected self); auto.
Qed.

(** The shape the four getters share: a guard that answers [null], then a
    [try] block around the service call whose handler warns and answers
    [null]. *)
Lemma guarded_absorbs {A : Type} (guard : GTCXEcosystemIntegration -> bool)
    (msg : string) :
  absorbs (fun service : Eff A =>
    self ← getThis;
    if guard self then mret None
    else try_catch (r ← service; mret (Some r))
                   (fun error => console_warn msg error;; mret None)).
Proof.
  intros service m. unfold getThis, console_warn. unfold_eff.
  destruct (guard (this m)).
  - split; [eauto | intros; eauto].
  - split.
    + destruct (service m) as [[r | e] m1]; eauto.
    + intros e m1 Hthrow. rewrite Hthrow. eauto.
Qed.

(** C1. A getter whose capability is disabled (its section is absent or
    its [enabled] flag is false) returns [null]; it does not throw, and it
    leaves the instance and the console as they were.  This holds for
    [getAIRiskAssessment] and [getAITradeRecommendations] (section [ai]),
    for [performGuardianCompliance] (section [compliance]) and for
    [getSecurityStatus] (section [security]), connected or not. *)
Theorem disabled_getter_returns_null
    (m : Machine) (host : Host) (userId : string) (data : JsValue) :
  (disabled (ai (config (this m))) ->
     getAIRiskAssessment host data m = (Normal None, m) /\
     getAITradeRecommendations userId data m = (Normal None, m)) /\
  (disabled (compliance (config (this m))) ->
     performGuardianCompliance host userId m = (Normal None, m)) /\
  (disabled (security (config (this m))) ->
     getSecurityStatus host userId m = (Normal None, m)).
Proof.
  split; [| split].
  - intros Hoff%disabled_truthy.
    split; [apply aiRisk_closed | apply aiTrade_closed]; now left.
  - intros Hoff%disabled_truthy. apply compliance_closed. now left.
  - intros Hoff%disabled_truthy. apply security_closed. now left.
Qed.

Lemma disabled_getter_returns_null_witness :
  getAIRiskAssessment sampleHost JsNull (connected allOffConfig)
    = (Normal None, connected allOffConfig) /\
  getAITradeRecommendations "user-123" JsNull (connected allOffConfig)
    = (Normal None, connected allOffConfig) /\
  performGuardianCompliance sampleHost "user-123" (connected allOffConfig)
    = (Normal None, connected allOffConfig) /\
  getSecurityStatus sampleHost "user-123" (connected allOffConfig)
    = (Normal None, connected allOffConfig).
Proof.
  destruct (disabled_getter_returns_null (connected allOffConfig) sampleHost
              "user-123" JsNull) as (Hai & Hco & Hse).
  assert (Hoff : disabled (ai (config (this (connected allOffConfig)))))
    by (right; eexists; split; reflexivity).
  destruct (Hai Hoff) as [H1 H2].
  split; [exact H1 | split; [exact H2 | split]].
  - apply Hco. left. reflexivity.
  - apply Hse. right. eexists. split; reflexivity.
Defined.

(** C2. Every getter absorbs the failures of the service call made in its
    [try] block: whatever that call does, the getter completes normally,
    and when the call throws the getter returns [null].  In particular the
    four getters as they are written today never throw, for any input and
    any state of the instance. *)
Theorem getters_absorb_failures (userId : string) (data : JsValue) :
  (absorbs (fun service => getAIRiskAssessmentVia service data) /\
   absorbs (fun service => getAITradeRecommendationsVia service userId data) /\
   absorbs (fun service => performGuardianComplianceVia service userId) /\
   absorbs (fun service => getSecurityStatusVia service userId)) /\
  (forall (host : Host) (m : Machine),
     (exists r m', getAIRiskAssessment host data m = (Normal r, m')) /\
     (exists r m', getAITradeRecommendations userId data m = (Normal r, m')) /\
     (exists r m', performGuardianCompliance host userId m = (Normal r, m')) /\
     (exists r m', getSecurityStatus host userId m = (Normal r, m'))).
Proof.
  assert (Habs :
    absorbs (fun service => getAIRiskAssessmentVia service data) /\
    absorbs (fun service => getAITradeRecommendationsVia service userId data) /\
    absorbs (fun service => performGuardianComplianceVia service userId) /\
    absorbs (fun service => getSecurityStatusVia service userId)).
  { split; [| split; [| split]].
    - apply (guarded_absorbs
               (fun self => negb (truthy (enabled <$> ai (config self)))
                            || negb (isConnected self))).
    - apply (guarded_absorbs
               (fun self => negb (truthy (enabled <$> ai (config self)))
                            || negb (isConnected self))).
    - apply (guarded_absorbs
               (fun self => negb (truthy (enabled <$> compliance (config self)))
                            || negb (isConnected self))).
    - apply (guarded_absorbs
               (fun self => negb (truthy (enabled <$> security (config self)))
                            || negb (isConnected self))). }
  split; [exact Habs |].
  destruct Habs as (Ha & Hb & Hc & Hd).
  intros host m. repeat split.
  - apply (Ha (mockAIResponse host) m).
  - apply (Hb mockTradeRecommendations m).
  - apply (Hc (mockComplianceResult host) m).
  - apply (Hd (mockSecurityResult host) m).
Qed.

Example failing_service_is_absorbed :
  getAIRiskAssessmentVia failingService JsNull (connected fullConfig)
    = (Normal None,
       {| this := {| config := fullConfig; isConnected := true |};
          console := [("AI risk assessment failed:", JsString "ETIMEDOUT")] |}).
Proof. reflexivity. Qed.

(** C6. Shapes of the results.  Numbers are exact rationals and
    [Math.random()] is taken to keep its promise [0 <= x < 1].  A non-null
    AI response has [riskScore] in [0, 100] and [confidence] in [0, 1]; a
    non-null security result has a [riskLevel] among low, medium and high;
    a non-null compliance result carries the four boolean checks and a
    list of warnings.  That [recommendations], [permissions] and
    [warnings] are lists of strings and [authenticated] a boolean is what
    the record types say. *)
Theorem gateway_result_shapes
    (host : Host) (userId : string) (data : JsValue) (m : Machine) :
  random_in_range host ->
  (forall r m', getAIRiskAssessment host data m = (Normal (Some r), m') ->
     (0 <= riskScore r <= 100)%Q /\ (0 <= confidence r <= 1)%Q) /\
  (forall r m', getSecurityStatus host userId m = (Normal (Some r), m') ->
     riskLevel r ∈ riskLevels /\
     exists (a : bool) (ps : list string), authenticated r = a /\ permissions r = ps) /\
  (forall r m', performGuardianCompliance host userId m = (Normal (Some r), m') ->
     exists (k a t rk : bool) (ws : list string),
       checks r = {| kyc := k; aml := a; trading := t; risk := rk |} /\ warnings r = ws).
Proof.
  intros [Hlo Hhi]. split; [| split]; intros r m' Hcall.
  - destruct (guard_cases (ai (config (this m))) (this m)) as [Hoff | [Hon Hconn]].
    + unfold getAIRiskAssessment in Hcall. rewrite aiRisk_closed in Hcall by exact Hoff.
      discriminate.
    + rewrite aiRisk_open in Hcall by assumption.
      injection Hcall as <- _. simpl. split; lra.
  - destruct (guard_cases (security (config (this m))) (this m)) as [Hoff | [Hon Hconn]].
    + unfold getSecurityStatus in Hcall. rewrite security_closed in Hcall by exact Hoff.
      discriminate.
    + rewrite security_open in Hcall by assumption.
      injection Hcall as <- _. simpl. split; [| eauto].
      unfold riskLevels. apply list_elem_of_here.
  - destruct r as [c [k a t rk] ws ts]. simpl. eauto 10.
Qed.

Lemma gateway_result_shapes_witness :
  (0 <= riskScore sampleAIResponse <= 100)%Q /\
  (0 <= confidence sampleAIResponse <= 1)%Q.
Proof.
  assert (Hrange : random_in_range sampleHost).
  { unfold random_in_range, sampleHost. simpl. split; lra. }
  destruct (gateway_result_shapes sampleHost "user-123" JsNull (connected fullConfig) Hrange)
    as (Hai & _ & _).
  apply (Hai sampleAIResponse (connected fullConfig)). reflexivity.
Defined.

(** C7. Capability independence.  Take two configurations that agree on
    their [compliance] and [security] sections (so they may differ in
    [ai.enabled]), connect an instance of each, and call
    [performGuardianCompliance] and [getSecurityStatus] with the same user
    and the same clock reading: the two instances return the same results.
    If moreover the AI capability is disabled in the first configuration,
    its two AI getters return [null] there. *)
Theorem capability_independence
    (c1 c2 : GTCXConfig) (host : Host) (userId : string) (data : JsValue) :
  compliance c1 = compliance c2 ->
  security c1 = security c2 ->
  (performGuardianCompliance host userId (connected c1)).1
    = (performGuardianCompliance host userId (connected c2)).1 /\
  (getSecurityStatus host userId (connected c1)).1
    = (getSecurityStatus host userId (connected c2)).1 /\
  (disabled (ai c1) ->
     (getAIRiskAssessment host data (connected c1)).1 = Normal None /\
     (getAITradeRecommendations userId data (connected c1)).1 = Normal None).
Proof.
  intros Hco Hse. rewrite !connected_eq. split; [| split].
  - unfold_getters. simpl. rewrite Hco.
    destruct (truthy (enabled <$> compliance c2)); reflexivity.
  - unfold_getters. simpl. rewrite Hse.
    destruct (truthy (enabled <$> security c2)); reflexivity.
  - intros Hoff%disabled_truthy. split.
    + unfold getAIRiskAssessment. rewrite aiRisk_closed; [reflexivity | now left].
    + unfold getAITradeRecommendations. rewrite aiTrade_closed; [reflexivity | now left].
Qed.

Lemma capability_independence_witness :
  (performGuardianCompliance sampleHost "user-123" (connected fullConfigAiOff)).1
    = (performGuardianCompliance sampleHost "user-123" (connected fullConfig)).1 /\
  (getSecurityStatus sampleHost "user-123" (connected fullConfigAiOff)).1
    = (getSecurityStatus sampleHost "user-123" (connected fullConfig)).1 /\
  (getAIRiskAssessment sampleHost JsNull (connected fullConfigAiOff)).1 = Normal None /\
  (getAITradeRecommendations "user-123" JsNull (connected fullConfigAiOff)).1 = Normal None.
Proof.
  destruct (capability_independence fullConfigAiOff fullConfig sampleHost "user-123" JsNull
              eq_refl eq_refl) as (Hco & Hse & Hai).
  split; [exact Hco | split; [exact Hse |]].
  apply Hai. right. eexists. split; reflexivity.
Defined.

(** C8. A non-null result of [performGuardianCompliance] is always the same
    record up to its timestamp: [compliant] is true, the four checks are
    true and there is no warning.  No input makes the getter report a
    non-compliant user. *)
Theorem compliance_result_is_fixed
    (host : Host) (userId : string) (m m' : Machine) (r : GTCXComplianceResult) :
  performGuardianCompliance host userId m = (Normal (Some r), m') ->
  compliant r = true /\
  checks r = {| kyc := true; aml := true; trading := true; risk := true |} /\
  warnings r = [] /\
  complianceTimestamp r = now host.
Proof.
  intros Hcall.
  destruct (guard_cases (compliance (config (this m))) (this m)) as [Hoff | [Hon Hconn]].
  - unfold performGuardianCompliance in Hcall.
    rewrite compliance_closed in Hcall by exact Hoff. discriminate.
  - rewrite compliance_open in Hcall by assumption.
    injection Hcall as <- _. repeat split.
Qed.

Lemma compliance_result_is_fixed_witness :
  performGuardianCompliance sampleHost "user-123" (connected fullConfig)
    = (Normal (Some sampleComplianceResult), connected fullConfig) /\
  compliant sampleComplianceResult = true /\
  checks sampleComplianceResult
    = {| kyc := true; aml := true; trading := true; risk := true |} /\
  warnings sampleComplianceResult = [] /\
  complianceTimestamp sampleComplianceResult = now sampleHost.
Proof.
  assert (Hcall : performGuardianCompliance sampleHost "user-123" (connected fullConfig)
                  = (Normal (Some sampleComplianceResult), connected fullConfig))
    by reflexivity.
  split; [exact Hcall |].
  exact (compliance_result_is_fixed sampleHost "user-123" (connected fullConfig)
           (connected fullConfig) sampleComplianceResult Hcall).
Defined.

(** C9. While [isConnected] is false, which is how the constructor leaves
    it, every getter returns [null] for every input, whatever the
    configuration enables, and changes nothing. *)
Theorem getters_null_before_connect
    (m : Machine) (host : Host) (userId : string) (data : JsValue) :
  isConnected (this m) = false ->
  getAIRiskAssessment host data m = (Normal None, m) /\
  getAITradeRecommendations userId data m = (Normal None, m) /\
  performGuardianCompliance host userId m = (Normal None, m) /\
  getSecurityStatus host userId m = (Normal None, m).
Proof.
  intros Hoff. split; [| split; [| split]].
  - apply aiRisk_closed. now right.
  - apply aiTrade_closed. now right.
  - apply compliance_closed. now right.
  - apply security_closed. now right.
Qed.

Lemma getters_null_before_connect_witness :
  isConnected (this (boot fullConfig)) = false /\
  getAIRiskAssessment sampleHost JsNull (boot fullConfig) = (Normal None, boot fullConfig) /\
  getAITradeRecommendations "user-123" JsNull (boot fullConfig)
    = (Normal None, boot fullConfig) /\
  performGuardianCompliance sampleHost "user-123" (boot fullConfig)
    = (Normal None, boot fullConfig) /\
  getSecurityStatus sampleHost "user-123" (boot fullConfig) = (Normal None, boot fullConfig).
Proof.
  split; [apply new_isConnected |].
  apply (getters_null_before_connect (boot fullConfig) sampleHost "user-123" JsNull).
  apply new_isConnected.
Defined.

(** C10. [connect] returns [true] and leaves [isConnected] true for every
    configuration and every prior state; it writes nothing to the console,
    so its [catch] branch is never entered.  The three probes always
    complete normally. *)
Theorem connect_always_succeeds (m : Machine) :
  connect m = (Normal true, markConnected m) /\
  isConnected (this (connect m).2) = true /\
  console (connect m).2 = console m /\
  testAIConnection m = (Normal tt, m) /\
  testComplianceConnection m = (Normal tt, m) /\
  testSecurityConnection m = (Normal tt, m).
Proof.
  rewrite connect_run. repeat split.
Qed.

End GatewayProofs.

(** ** Properties of the trading core *)

Module TradingCoreProofs.
Import TradingCore.

Lemma portfolioOf_insert ledger userId pf :
  portfolioOf (<[userId := pf]> ledger) userId = pf.
Proof. unfold portfolioOf. now rewrite lookup_insert_eq. Qed.

Lemma positionOf_insert ledger userId symbol pos held cash pnl :
  positionOf (<[userId := {| positions := <[symbol := pos]> held;
                             cashBalance := cash; realizedPnL := pnl |}]> ledger)
    userId symbol = pos.
Proof.
  unfold positionOf. rewrite portfolioOf_insert. simpl. now rewrite lookup_insert_eq.
Qed.

(** What a buy does, for any ledger and any amounts. *)
Lemma applyTrade_buy ledger userId symbol q p :
  exists ledger',
    applyTrade ledger userId symbol buy q p = (Ok tt, ledger') /\
    Position.quantity (positionOf ledger' userId symbol)
      = (Position.quantity (positionOf ledger userId symbol) + q)%Q /\
    Position.averageCost (positionOf ledger' userId symbol)
      = (if Qeq_bool (Position.quantity (positionOf ledger userId symbol)) 0 then p
         else (Position.quantity (positionOf ledger userId symbol)
               * Position.averageCost (positionOf ledger userId symbol) + q * p)
              / (Position.quantity (positionOf ledger userId symbol) + q))%Q /\
    cashBalance (portfolioOf ledger' userId)
      = (cashBalance (portfolioOf ledger userId) - q * p)%Q /\
    realizedPnL (portfolioOf ledger' userId) = realizedPnL (portfolioOf ledger userId).
Proof.
  eexists. split; [reflexivity |].
  rewrite positionOf_insert, portfolioOf_insert. simpl. repeat split.
Qed.

(** C3. Weighted-average-cost law of the Portfolio Ledger.  From an empty
    position, a buy of 100 units at 10 followed by a buy of 100 units at 20
    for the same user and symbol leaves [quantity = 200] and
    [averageCost = 15].  In general a buy succeeds, sets
    [newQty = oldQty + quantity], sets [newAvgCost] to [executionPrice] when
    [oldQty] is zero and to
    [(oldQty*oldAvgCost + quantity*executionPrice) / newQty] otherwise, and
    lowers the cash by [quantity*executionPrice]. *)
Theorem buy_weighted_average_cost :
  (forall (ledger : gmap string Portfolio) (userId symbol : string),
     (Position.quantity (positionOf ledger userId symbol) == 0)%Q ->
     exists l1 l2 : gmap string Portfolio,
       applyTrade ledger userId symbol buy 100 10 = (Ok tt, l1) /\
       applyTrade l1 userId symbol buy 100 20 = (Ok tt, l2) /\
       (Position.quantity (positionOf l2 userId symbol) == 200)%Q /\
       (Position.averageCost (positionOf l2 userId symbol) == 15)%Q) /\
  (forall (ledger : gmap string Portfolio) (userId symbol : string) (quantity price : Q),
     exists ledger' : gmap string Portfolio,
       applyTrade ledger userId symbol buy quantity price = (Ok tt, ledger') /\
       let oldQty := Position.quantity (positionOf ledger userId symbol) in
       let oldAvgCost := Position.averageCost (positionOf ledger userId symbol) in
       let newQty := Position.quantity (positionOf ledger' userId symbol) in
       let newAvgCost := Position.averageCost (positionOf ledger' userId symbol) in
       newQty = (oldQty + quantity)%Q /\
       ((oldQty == 0)%Q -> newAvgCost = price) /\
       (~ (oldQty == 0)%Q ->
        newAvgCost = ((oldQty * oldAvgCost + quantity * price) / newQty)%Q) /\
       cashBalance (portfolioOf ledger' userId)
         = (cashBalance (portfolioOf ledger userId) - quantity * price)%Q).
Proof.
  split.
  - intros ledger userId symbol Hempty.
    destruct (applyTrade_buy ledger userId symbol 100 10)
      as (l1 & Hrun1 & Hq1 & Ha1 & _ & _).
    destruct (applyTrade_buy l1 userId symbol 100 20)
      as (l2 & Hrun2 & Hq2 & Ha2 & _ & _).
    exists l1, l2. split; [exact Hrun1 | split; [exact Hrun2 |]].
    assert (Hzero : Qeq_bool (Position.quantity (positionOf ledger userId symbol)) 0 = true)
      by now apply Qeq_bool_iff.
    rewrite Hzero in Ha1.
    assert (Hhundred : (Position.quantity (positionOf l1 userId symbol) == 100)%Q).
    { rewrite Hq1, Hempty. reflexivity. }
    assert (Hnonzero : Qeq_bool (Position.quantity (positionOf l1 userId symbol)) 0 = false).
    { destruct (Qeq_bool _ 0) eqn:Hb; [| reflexivity].
      apply Qeq_bool_iff in Hb. rewrite Hhundred in Hb. discriminate Hb. }
    rewrite Hnonzero in Ha2.
    split.
    + rewrite Hq2, Hhundred. reflexivity.
    + rewrite Ha2, Ha1, Hhundred. reflexivity.
  - intros ledger userId symbol quantity price.
    destruct (applyTrade_buy ledger userId symbol quantity price)
      as (ledger' & Hrun & Hq & Ha & Hcash & _).
    exists ledger'. split; [exact Hrun |]. cbv zeta.
    split; [exact Hq | split; [| split; [| exact Hcash]]].
    + intros Hzero. apply Qeq_bool_iff in Hzero. now rewrite Hzero in Ha.
    + intros Hnz. rewrite Ha, Hq.
      destruct (Qeq_bool _ 0) eqn:Hb; [| reflexivity].
      apply Qeq_bool_iff in Hb. contradiction.
Qed.

Lemma buy_weighted_average_cost_witness :
  exists l1 l2 : gmap string Portfolio,
    applyTrade ∅ "u1" "GOLD" buy 100 10 = (Ok tt, l1) /\
    applyTrade l1 "u1" "GOLD" buy 100 20 = (Ok tt, l2) /\
    (Position.quantity (positionOf l2 "u1" "GOLD") == 200)%Q /\
    (Position.averageCost (positionOf l2 "u1" "GOLD") == 15)%Q.
Proof.
  apply (proj1 buy_weighted_average_cost ∅ "u1" "GOLD"). reflexivity.
Defined.

Lemma applyTrade_oversell ledger userId symbol quantity price :
  (Position.quantity (positionOf ledger userId symbol) < quantity)%Q ->
  applyTrade ledger userId symbol sell quantity price = (Err InsufficientPosition, ledger).
Proof.
  intros Hshort. unfold applyTrade.
  destruct (Qle_bool quantity (Position.quantity (positionOf ledger userId symbol))) eqn:Hle.
  - apply Qle_bool_iff in Hle. exfalso. exact (Qlt_not_le _ _ Hshort Hle).
  - reflexivity.
Qed.

(** C4. A sell through [applyTrade] of more than the held quantity fails
    with [InsufficientPosition], and the ledger that comes out is the ledger
    that went in: the user's position, cash balance and realized P&L are
    exactly as before. *)
Theorem oversell_fails_without_effect
    (ledger : gmap string Portfolio) (userId symbol : string) (quantity price : Q) :
  (Position.quantity (positionOf ledger userId symbol) < quantity)%Q ->
  applyTrade ledger userId symbol sell quantity price = (Err InsufficientPosition, ledger) /\
  let ledger' := (applyTrade ledger userId symbol sell quantity price).2 in
  positionOf ledger' userId symbol = positionOf ledger userId symbol /\
  cashBalance (portfolioOf ledger' userId) = cashBalance (portfolioOf ledger userId) /\
  realizedPnL (portfolioOf ledger' userId) = realizedPnL (portfolioOf ledger userId).
Proof.
  intros Hshort. pose proof (applyTrade_oversell _ _ _ _ price Hshort) as Hrun.
  split; [exact Hrun |]. rewrite Hrun. simpl. repeat split.
Qed.

Lemma oversell_fails_without_effect_witness :
  applyTrade goldLedger "u1" "GOLD" sell 150 12 = (Err InsufficientPosition, goldLedger).
Proof.
  apply (oversell_fails_without_effect goldLedger "u1" "GOLD" 150 12). reflexivity.
Defined.

(** Through [executeTrade] the same failure leaves the whole engine as it
    was: the order stays pending and no trade is recorded. *)
Lemma executeTrade_oversell (now : Date) (orderId : nat) (price : Q) (s : Engine)
    (o : Order.t) :
  orders s !! orderId = Some o ->
  Order.status o = pending ->
  Order.side o = sell ->
  (0 < price)%Q ->
  (Position.quantity (positionOf (portfolios s) (Order.userId o) (Order.symbol o))
   < Order.quantity o)%Q ->
  executeTrade now orderId price s = (Err InsufficientPosition, s).
Proof.
  intros Hlook Hpending Hsell Hprice Hshort. unfold executeTrade.
  rewrite Hlook, Hpending, Hsell.
  destruct (Qle_bool price 0) eqn:Hle.
  - apply Qle_bool_iff in Hle. exfalso. exact (Qlt_not_le _ _ Hprice Hle).
  - rewrite applyTrade_oversell by exact Hshort. reflexivity.
Qed.

(** *** The order state machine *)

Lemma consistent_empty : consistent emptyEngine.
Proof. split; [intros id o H; discriminate | intros id; reflexivity]. Qed.

Lemma fresh_id_unused (s : Engine) :
  (forall id o, orders s !! id = Some o -> id < nextOrderId s) ->
  orders s !! nextOrderId s = None.
Proof.
  intros Hfresh. destruct (orders s !! nextOrderId s) as [o |] eqn:Hlook; [| reflexivity].
  apply Hfresh in Hlook. lia.
Qed.

Lemma tradesOf_snoc (id : nat) (ts : list Trade.t) (t : Trade.t) :
  length (filter (fun t => Trade.orderId t = id) (ts ++ [t])%list)
  = length (filter (fun t => Trade.orderId t = id) ts)
    + (if decide (Trade.orderId t = id) then 1 else 0).
Proof.
  rewrite filter_app, length_app. f_equal.
  rewrite filter_cons, filter_nil. destruct (decide (Trade.orderId t = id)); reflexivity.
Qed.

Lemma consistent_placeOrder now userId symbol side quantity limitPrice s :
  consistent s -> consistent (placeOrder now userId symbol side quantity limitPrice s).2.
Proof.
  intros [Hfresh Hcount]. unfold placeOrder.
  destruct (users s !! userId); [| now split].
  destruct (Qle_bool quantity 0); [now split |].
  destruct (Qle_bool limitPrice 0); [now split |].
  split; simpl.
  - intros id o. rewrite lookup_insert. case_decide.
    + intros _. lia.
    + intros Hlook%Hfresh. lia.
  - intros id. unfold tradesOf in *. simpl. rewrite Hcount, lookup_insert. case_decide.
    + subst id. now rewrite fresh_id_unused.
    + reflexivity.
Qed.

Lemma consistent_executeTrade now orderId price s :
  consistent s -> consistent (executeTrade now orderId price s).2.
Proof.
  intros [Hfresh Hcount]. unfold executeTrade.
  destruct (orders s !! orderId) as [o |] eqn:Hlook; [| now split].
  case_bool_decide as Hpending; [| now split]. simpl.
  destruct (Qle_bool price 0); [now split |].
  destruct (applyTrade _ _ _ _ _ _) as [[[] | e] ledger]; [| now split].
  split; simpl.
  - intros id o'. rewrite lookup_insert. case_decide.
    + intros _. subst id. eauto.
    + apply Hfresh.
  - intros id. unfold tradesOf in *. simpl. rewrite tradesOf_snoc, Hcount, lookup_insert.
    simpl. destruct (decide (orderId = id)) as [-> | Hne].
    + rewrite Hlook. simpl. rewrite Hpending. reflexivity.
    + lia.
Qed.

Lemma consistent_cancelOrder orderId s :
  consistent s -> consistent (cancelOrder orderId s).2.
Proof.
  intros [Hfresh Hcount]. unfold cancelOrder.
  destruct (orders s !! orderId) as [o |] eqn:Hlook; [| now split].
  destruct (Order.status o) eqn:Hstatus; [| now split | now split].
  split; simpl.
  - intros id o'. rewrite lookup_insert. case_decide.
    + intros _. subst id. eauto.
    + apply Hfresh.
  - intros id. unfold tradesOf in *. simpl. rewrite Hcount, lookup_insert.
    destruct (decide (orderId = id)) as [-> | Hne]; [| reflexivity].
    rewrite Hlook. simpl. now rewrite Hstatus.
Qed.

Lemma consistent_step (s s' : Engine) : consistent s -> step s s' -> consistent s'.
Proof.
  intros Hs Hstep. destruct Hstep.
  - exact Hs.
  - now apply consistent_placeOrder.
  - now apply consistent_executeTrade.
  - now apply consistent_cancelOrder.
Qed.

Lemma reachable_consistent (s : Engine) : reachable s -> consistent s.
Proof.
  induction 1 as [| s s' _ IH Hstep]; [apply consistent_empty |].
  exact (consistent_step s s' IH Hstep).
Qed.

Lemma moves_legally_refl (o : Order.t) : moves_legally o o.
Proof. split; auto. Qed.

Lemma step_orders (s s' : Engine) :
  (forall id o, orders s !! id = Some o -> id < nextOrderId s) ->
  step s s' ->
  forall id o, orders s !! id = Some o ->
  exists o', orders s' !! id = Some o' /\ moves_legally o o'.
Proof.
  intros Hfresh Hstep id o Hid.
  destruct Hstep as [registry s | time userId symbol side quantity limitPrice s
                    | time orderId executionPrice s | orderId s].
  - exists o. split; [exact Hid | apply moves_legally_refl].
  - unfold placeOrder.
    destruct (users s !! userId); [| eauto using moves_legally_refl].
    destruct (Qle_bool quantity 0); [eauto using moves_legally_refl |].
    destruct (Qle_bool limitPrice 0); [eauto using moves_legally_refl |].
    simpl. exists o. split; [| apply moves_legally_refl].
    rewrite lookup_insert_ne; [exact Hid |].
    apply Hfresh in Hid. lia.
  - unfold executeTrade.
    destruct (orders s !! orderId) as [target |] eqn:Hlook;
      [| eauto using moves_legally_refl].
    case_bool_decide as Hpending; [| eauto using moves_legally_refl]. simpl.
    destruct (Qle_bool executionPrice 0); [eauto using moves_legally_refl |].
    destruct (applyTrade _ _ _ _ _ _) as [[[] | e] ledger];
      [| eauto using moves_legally_refl].
    simpl. rewrite lookup_insert. case_decide as Hsame.
    + subst id. rewrite Hlook in Hid. injection Hid as ->.
      exists (markExecuted time o). split; [reflexivity |]. split; simpl.
      * right. rewrite Hpending. constructor.
      * intros Hterminal. contradiction.
    + eauto using moves_legally_refl.
  - unfold cancelOrder.
    destruct (orders s !! orderId) as [target |] eqn:Hlook;
      [| eauto using moves_legally_refl].
    destruct (Order.status target) eqn:Hstatus; [| eauto using moves_legally_refl ..].
    simpl. rewrite lookup_insert. case_decide as Hsame.
    + subst id. rewrite Hlook in Hid. injection Hid as ->.
      exists (markCancelled o). split; [reflexivity |]. split; simpl.
      * right. rewrite Hstatus. constructor.
      * intros Hterminal. congruence.
    + eauto using moves_legally_refl.
Qed.

(** C5. Order state machine.  In every state the engine can reach, every
    order is pending, executed or cancelled; an executed order has exactly
    one trade and a pending or cancelled order has none; every recorded
    trade belongs to an executed order; and whatever operation comes next,
    every order is still there and either keeps its status or goes from
    pending to executed or from pending to cancelled, an executed or
    cancelled order staying exactly as it is. *)
Theorem order_state_machine (s : Engine) :
  reachable s ->
  (forall id o, orders s !! id = Some o ->
     (Order.status o = pending \/ Order.status o = executed \/ Order.status o = cancelled) /\
     (Order.status o = executed -> exists t, tradesOf id s = [t]) /\
     (Order.status o <> executed -> tradesOf id s = [])) /\
  (forall t, t ∈ trades s ->
     exists o, orders s !! Trade.orderId t = Some o /\ Order.status o = executed) /\
  (forall s', step s s' ->
     forall id o, orders s !! id = Some o ->
     exists o', orders s' !! id = Some o' /\
       (Order.status o' = Order.status o \/ transition (Order.status o) (Order.status o')) /\
       (Order.status o <> pending -> o' = o)).
Proof.
  intros [Hfresh Hcount]%reachable_consistent. split; [| split].
  - intros id o Hid. specialize (Hcount id). rewrite Hid in Hcount. simpl in Hcount.
    split; [destruct (Order.status o); auto |]. split.
    + intros Hexec. rewrite bool_decide_eq_true_2 in Hcount by exact Hexec.
      destruct (tradesOf id s) as [| t [| t' rest]]; try discriminate Hcount. eauto.
    + intros Hnot. rewrite bool_decide_eq_false_2 in Hcount by exact Hnot.
      destruct (tradesOf id s); [reflexivity | discriminate Hcount].
  - intros t Ht. specialize (Hcount (Trade.orderId t)).
    assert (Hin : t ∈ tradesOf (Trade.orderId t) s).
    { unfold tradesOf. apply list_elem_of_filter. split; [reflexivity | exact Ht]. }
    destruct (tradesOf (Trade.orderId t) s) as [| t0 rest] eqn:Hts.
    + inversion Hin.
    + simpl in Hcount. destruct (orders s !! Trade.orderId t) as [o |]; [| discriminate Hcount].
      exists o. split; [reflexivity |]. simpl in Hcount.
      case_bool_decide; [assumption | discriminate Hcount].
  - intros s' Hstep id o Hid. exact (step_orders s s' Hfresh Hstep id o Hid).
Qed.

Lemma traded_reachable : reachable traded.
Proof.
  apply (reachable_step placed); [| apply step_executeTrade].
  apply (reachable_step registered); [| apply step_placeOrder].
  apply (reachable_step emptyEngine); [| apply step_registry].
  apply reachable_empty.
Qed.

Example scenario_portfolio :
  (Position.quantity (positionOf (portfolios traded) "u1" "GOLD") == 100)%Q /\
  (Position.averageCost (positionOf (portfolios traded) "u1" "GOLD") == 1950.50)%Q /\
  (cashBalance (portfolioOf (portfolios traded) "u1") == - 195050)%Q.
Proof. repeat split. Qed.

Lemma order_state_machine_witness :
  exists (o : Order.t) (t : Trade.t),
    orders traded !! 0 = Some o /\ Order.status o = executed /\ tradesOf 0 traded = [t].
Proof.
  destruct (order_state_machine traded traded_reachable) as (Horders & _ & _).
  destruct (Horders 0 (markExecuted 2%Z
              {| Order.id := 0; Order.userId := "u1"; Order.symbol := "GOLD";
                 Order.side := buy; Order.quantity := 100; Order.limitPrice := 1950.50;
                 Order.status := pending; Order.createdAt := 1%Z;
                 Order.executedAt := None |}) eq_refl) as (_ & Hone & _).
  destruct (Hone eq_refl) as [t Ht].
  eexists. exists t. split; [reflexivity |]. split; [reflexivity | exact Ht].
Defined.

End TradingCoreProofs.

(** ** Further properties of the Ecosystem Gateway *)

Module GatewayExtProofs.
Import Gateway GatewayExt GatewayProofs.

Lemma aiRisk_run host data m :
  getAIRiskAssessment host data m = (answer (switchedOn ai m) (aiAnswer host), m).
Proof.
  unfold_getters. unfold switchedOn, answer.
  destruct (truthy _), (isConnected _); reflexivity.
Qed.

Lemma aiTrade_run userId data m :
  getAITradeRecommendations userId data m = (answer (switchedOn ai m) tradeAnswer, m).
Proof.
  unfold_getters. unfold switchedOn, answer.
  destruct (truthy _), (isConnected _); reflexivity.
Qed.

Lemma compliance_run host userId m :
  performGuardianCompliance host userId m
  = (answer (switchedOn compliance m) (complianceAnswer host), m).
Proof.
  unfold_getters. unfold switchedOn, answer.
  destruct (truthy _), (isConnected _); reflexivity.
Qed.

Lemma security_run host userId m :
  getSecurityStatus host userId m = (answer (switchedOn security m) (securityAnswer host), m).
Proof.
  unfold_getters. unfold switchedOn, answer.
  destruct (truthy _), (isConnected _); reflexivity.
Qed.


Lemma answer_inv {A : Type} (on : bool) (a r : A) :
  answer on a = Normal (Some r) -> r = a.
Proof. destruct on; simpl; congruence. Qed.


(** X2. No getter and no status reader changes anything: after the call the
    instance (configuration and connection flag) and the console are what
    they were, whether the call answered a value or [null]. *)
Theorem getters_change_nothing
    (host : Host) (userId : string) (data : JsValue) (m : Machine) :
  (getAIRiskAssessment host data m).2 = m /\
  (getAITradeRecommendations userId data m).2 = m /\
  (performGuardianCompliance host userId m).2 = m /\
  (getSecurityStatus host userId m).2 = m /\
  (isOfflineModeSupported m).2 = m /\
  (isLowBandwidthOptimized m).2 = m /\
  (getConnectionStatus m).2 = m.
Proof.
  rewrite aiRisk_run, aiTrade_run, compliance_run, security_run.
  split; [reflexivity |]. split; [reflexivity |]. split; [reflexivity |].
  split; [reflexivity |]. split; [reflexivity |]. split; reflexivity.
Qed.

(** X3. What a getter answers depends only on its own switch (its section's
    [enabled] flag and the connection flag) and on the host readings it
    uses: two calls on different instances, for different users and with
    different data, answer alike as soon as the switch and the clock agree
    (and the random draw, for the risk score).  So the arguments, the
    [endpoint] and [apiKey] options, the other sections and the console
    have no influence. *)
Theorem getter_depends_only_on_switch
    (host1 host2 : Host) (userId1 userId2 : string) (data1 data2 : JsValue)
    (m1 m2 : Machine) :
  now host1 = now host2 ->
  (switchedOn ai m1 = switchedOn ai m2 -> random host1 = random host2 ->
   (getAIRiskAssessment host1 data1 m1).1 = (getAIRiskAssessment host2 data2 m2).1) /\
  (switchedOn ai m1 = switchedOn ai m2 ->
   (getAITradeRecommendations userId1 data1 m1).1
   = (getAITradeRecommendations userId2 data2 m2).1) /\
  (switchedOn compliance m1 = switchedOn compliance m2 ->
   (performGuardianCompliance host1 userId1 m1).1
   = (performGuardianCompliance host2 userId2 m2).1) /\
  (switchedOn security m1 = switchedOn security m2 ->
   (getSecurityStatus host1 userId1 m1).1 = (getSecurityStatus host2 userId2 m2).1).
Proof.
  intros Hnow. rewrite !aiRisk_run, !aiTrade_run, !compliance_run, !security_run. simpl.
  unfold aiAnswer, complianceAnswer, securityAnswer.
  split; [| split; [| split]].
  - intros -> ->. now rewrite Hnow.
  - now intros ->.
  - intros ->. now rewrite Hnow.
  - intros ->. now rewrite Hnow.
Qed.

Lemma getter_depends_only_on_switch_witness :
  (getSecurityStatus sampleHost "user-123" (connected fullConfig)).1
  = (getSecurityStatus otherHost "someone-else" bareMachine).1.
Proof.
  destruct (getter_depends_only_on_switch sampleHost otherHost "user-123" "someone-else"
              JsNull (JsString "x") (connected fullConfig) bareMachine eq_refl)
    as (_ & _ & _ & Hsec).
  apply Hsec. reflexivity.
Defined.

(** X4. A non-null result of [getSecurityStatus] is always the same record
    up to its timestamp: the user is authenticated, holds the permissions
    trade, withdraw and deposit, and is at low risk.  No user identifier
    makes the getter deny authentication or a permission. *)
Theorem security_result_is_fixed
    (host : Host) (userId : string) (m m' : Machine) (r : GTCXSecurityResult) :
  getSecurityStatus host userId m = (Normal (Some r), m') ->
  authenticated r = true /\
  permissions r = ["trade"; "withdraw"; "deposit"] /\
  riskLevel r = "low" /\
  securityTimestamp r = now host.
Proof.
  rewrite security_run. intros Hcall.
  injection Hcall as Hanswer _. apply answer_inv in Hanswer. subst r.
  repeat split.
Qed.

Lemma security_result_is_fixed_witness :
  authenticated (securityAnswer sampleHost) = true /\
  permissions (securityAnswer sampleHost) = ["trade"; "withdraw"; "deposit"] /\
  riskLevel (securityAnswer sampleHost) = "low" /\
  securityTimestamp (securityAnswer sampleHost) = now sampleHost.
Proof.
  apply (security_result_is_fixed sampleHost "user-123" (connected fullConfig)
           (connected fullConfig) (securityAnswer sampleHost)).
  reflexivity.
Defined.


(** X6. [isOfflineModeSupported] and [isLowBandwidthOptimized] never throw
    and answer [true] exactly when the [globalSouth] section is present with
    the flag set; a missing section reads as [false].  Connecting does not
    change their answers. *)
Theorem global_south_readers (m : Machine) :
  (exists b, isOfflineModeSupported m = (Normal b, m) /\
     (b = true <->
      exists g, globalSouth (config (this m)) = Some g /\ offlineMode g = true)) /\
  (exists b, isLowBandwidthOptimized m = (Normal b, m) /\
     (b = true <->
      exists g, globalSouth (config (this m)) = Some g /\ lowBandwidth g = true)) /\
  (isOfflineModeSupported (connect m).2).1 = (isOfflineModeSupported m).1 /\
  (isLowBandwidthOptimized (connect m).2).1 = (isLowBandwidthOptimized m).1.
Proof.
  rewrite connect_run. split; [| split; [| split; reflexivity]].
  - eexists. split; [reflexivity |]. simpl.
    destruct (globalSouth (config (this m))) as [g |]; simpl; split.
    + eauto.
    + intros (g' & Hg & Hflag). congruence.
    + discriminate.
    + intros (g' & Hg & _). discriminate.
  - eexists. split; [reflexivity |]. simpl.
    destruct (globalSouth (config (this m))) as [g |]; simpl; split.
    + eauto.
    + intros (g' & Hg & Hflag). congruence.
    + discriminate.
    + intros (g' & Hg & _). discriminate.
Qed.

(** The contract holds for the shape the four getters share. *)
Lemma guarded_guards {A : Type} (section : GTCXConfig -> option ServiceConfig)
    (msg : string) :
  guards section msg (fun service : Eff A =>
    self ← getThis;
    if negb (truthy (enabled <$> section (config self))) || negb (isConnected self)
    then mret None
    else try_catch (r ← service; mret (Some r))
                   (fun error => console_warn msg error;; mret None)).
Proof.
  intros service m. unfold switchedOn, getThis, console_warn, logged. unfold_eff.
  destruct (truthy _), (isConnected _); simpl.
  all: split; [intros Hoff | split; intros Hon];
    try discriminate; try reflexivity.
  - intros r m1 ->. reflexivity.
  - intros e m1 ->. reflexivity.
Qed.

(** X7. The contract of each getter around its service call.  With the
    capability disabled or the instance not connected, the service is not
    called: the getter answers [null] and nothing changes, whatever the
    service would have done.  Otherwise a result of the service is handed
    through as it is, with the state the service left, and a throw of the
    service becomes [null] with exactly one console warning, made of the
    getter's own message and the thrown value. *)
Theorem getter_wrapper_contract (userId : string) (data : JsValue) :
  guards ai "AI risk assessment failed:"
    (fun service => getAIRiskAssessmentVia service data) /\
  guards ai "AI trade recommendations failed:"
    (fun service => getAITradeRecommendationsVia service userId data) /\
  guards compliance "Guardian compliance check failed:"
    (fun service => performGuardianComplianceVia service userId) /\
  guards security "Security status check failed:"
    (fun service => getSecurityStatusVia service userId).
Proof.
  split; [| split; [| split]].
  - apply (guarded_guards ai).
  - apply (guarded_guards ai).
  - apply (guarded_guards compliance).
  - apply (guarded_guards security).
Qed.

Lemma getter_wrapper_contract_witness :
  getSecurityStatusVia failingService "user-123" (connected fullConfig)
  = (Normal None,
     logged "Security status check failed:" (JsString "ETIMEDOUT") (connected fullConfig)).
Proof.
  destruct (getter_wrapper_contract "user-123" JsNull) as (_ & _ & _ & Hsec).
  destruct (Hsec failingService (connected fullConfig)) as (_ & _ & Hthrow).
  apply Hthrow; reflexivity.
Defined.

(** [connect] runs its three stages in order and stops at the first throw. *)
Lemma connectVia_stages (probeAI probeCompliance probeSecurity : Eff unit) (m : Machine) :
  connectVia probeAI probeCompliance probeSecurity m =
  match stage ai probeAI m with
  | (Throw e, m1) => (Normal false, markFailed e m1)
  | (Normal _, m1) =>
      match stage compliance probeCompliance m1 with
      | (Throw e, m2) => (Normal false, markFailed e m2)
      | (Normal _, m2) =>
          match stage security probeSecurity m2 with
          | (Throw e, m3) => (Normal false, markFailed e m3)
          | (Normal _, m3) => (Normal true, markConnected m3)
          end
      end
  end.
Proof.
  unfold connectVia, stage, getThis, setIsConnected, console_warn, markFailed,
    markConnected.
  unfold_eff. unfold Js.ret. simpl.
  repeat (match goal with
          | |- context [truthy (enabled <$> ?section (config (this ?s)))] =>
              destruct (truthy (enabled <$> section (config (this s))))
          | |- context [probeAI ?s] => destruct (probeAI s) as [[[] | ?] ?]
          | |- context [probeCompliance ?s] => destruct (probeCompliance s) as [[[] | ?] ?]
          | |- context [probeSecurity ?s] => destruct (probeSecurity s) as [[[] | ?] ?]
          end; simpl); reflexivity.
Qed.

Lemma stage_mock (section : GTCXConfig -> option ServiceConfig) (ms : Z) (m : Machine) :
  stage section (awaitTimeout ms) m = (Normal tt, m).
Proof.
  unfold stage, getThis, awaitTimeout. unfold_eff. unfold Js.ret. simpl.
  destruct (truthy _); reflexivity.
Qed.

(** [connect] is [connectVia] at the three mock probes. *)
Lemma connect_is_connectVia (m : Machine) :
  connect m = connectVia testAIConnection testComplianceConnection testSecurityConnection m.
Proof.
  rewrite connect_run, connectVia_stages.
  unfold testAIConnection, testComplianceConnection, testSecurityConnection.
  now rewrite !stage_mock.
Qed.

Lemma stage_skipped (section : GTCXConfig -> option ServiceConfig) (probe : Eff unit)
    (m : Machine) :
  truthy (enabled <$> section (config (this m))) = false ->
  stage section probe m = (Normal tt, m).
Proof.
  intros Hoff. unfold stage, getThis. unfold_eff. simpl. now rewrite Hoff.
Qed.

(** X8. [connect] is [connectVia] at the mock probes; and whatever its
    probes do, [connect] never throws, and the boolean it returns is the
    connection flag it leaves behind, the one [getConnectionStatus] reports
    afterwards.  When it returns [false],
    every getter answers [null] afterwards, whatever the configuration
    enables. *)
Theorem connect_reports_its_flag
    (probeAI probeCompliance probeSecurity : Eff unit) (m : Machine) :
  connect m
  = connectVia testAIConnection testComplianceConnection testSecurityConnection m /\
  exists (b : bool) (m' : Machine),
    connectVia probeAI probeCompliance probeSecurity m = (Normal b, m') /\
    isConnected (this m') = b /\
    getConnectionStatus m' = (Normal b, m') /\
    (b = false ->
     forall (host : Host) (userId : string) (data : JsValue),
       getAIRiskAssessment host data m' = (Normal None, m') /\
       getAITradeRecommendations userId data m' = (Normal None, m') /\
       performGuardianCompliance host userId m' = (Normal None, m') /\
       getSecurityStatus host userId m' = (Normal None, m')).
Proof.
  assert (Hflag : forall b m',
    isConnected (this m') = b ->
    isConnected (this m') = b /\
    getConnectionStatus m' = (Normal b, m') /\
    (b = false ->
     forall (host : Host) (userId : string) (data : JsValue),
       getAIRiskAssessment host data m' = (Normal None, m') /\
       getAITradeRecommendations userId data m' = (Normal None, m') /\
       performGuardianCompliance host userId m' = (Normal None, m') /\
       getSecurityStatus host userId m' = (Normal None, m'))).
  { intros b m' Hb. split; [exact Hb |]. split.
    - unfold getConnectionStatus, getThis. unfold_eff. simpl. now rewrite Hb.
    - intros -> host userId data. split; [| split; [| split]].
      + apply aiRisk_closed. now right.
      + apply aiTrade_closed. now right.
      + apply compliance_closed. now right.
      + apply security_closed. now right. }
  split; [apply connect_is_connectVia |].
  rewrite connectVia_stages.
  destruct (stage ai probeAI m) as [[[] | e1] m1];
    [| exists false, (markFailed e1 m1); split; [reflexivity | now apply Hflag]].
  destruct (stage compliance probeCompliance m1) as [[[] | e2] m2];
    [| exists false, (markFailed e2 m2); split; [reflexivity | now apply Hflag]].
  destruct (stage security probeSecurity m2) as [[[] | e3] m3];
    [| exists false, (markFailed e3 m3); split; [reflexivity | now apply Hflag]].
  exists true, (markConnected m3). split; [reflexivity | now apply Hflag].
Qed.

(** X9. How a probe failure ends [connect].  If the probe of an enabled
    capability throws, [connect] returns [false], runs none of the later
    probes, clears the connection flag (also when the instance was
    connected before) and writes one console warning that carries the
    thrown value.  If the three stages pass, [connect] returns [true] and
    sets the flag without writing to the console. *)
Theorem connect_stops_at_first_failure
    (probeAI probeCompliance probeSecurity : Eff unit) (m : Machine) :
  (forall e m1,
     stage ai probeAI m = (Throw e, m1) ->
     connectVia probeAI probeCompliance probeSecurity m = (Normal false, markFailed e m1)) /\
  (forall m1 e m2,
     stage ai probeAI m = (Normal tt, m1) ->
     stage compliance probeCompliance m1 = (Throw e, m2) ->
     connectVia probeAI probeCompliance probeSecurity m = (Normal false, markFailed e m2)) /\
  (forall m1 m2 e m3,
     stage ai probeAI m = (Normal tt, m1) ->
     stage compliance probeCompliance m1 = (Normal tt, m2) ->
     stage security probeSecurity m2 = (Throw e, m3) ->
     connectVia probeAI probeCompliance probeSecurity m = (Normal false, markFailed e m3)) /\
  (forall m1 m2 m3,
     stage ai probeAI m = (Normal tt, m1) ->
     stage compliance probeCompliance m1 = (Normal tt, m2) ->
     stage security probeSecurity m2 = (Normal tt, m3) ->
     connectVia probeAI probeCompliance probeSecurity m = (Normal true, markConnected m3)).
Proof.
  split; [| split; [| split]].
  - intros e m1 H1. now rewrite connectVia_stages, H1.
  - intros m1 e m2 H1 H2. now rewrite connectVia_stages, H1, H2.
  - intros m1 m2 e m3 H1 H2 H3. now rewrite connectVia_stages, H1, H2, H3.
  - intros m1 m2 m3 H1 H2 H3. now rewrite connectVia_stages, H1, H2, H3.
Qed.

(** A connected instance whose compliance service then refuses a new
    [connect]: the AI stage passes, the compliance probe throws. *)
Lemma connect_stops_at_first_failure_witness :
  connectVia testAIConnection refusedProbe testSecurityConnection (connected fullConfig)
  = (Normal false, markFailed (JsString "ECONNREFUSED") (connected fullConfig)).
Proof.
  destruct (connect_stops_at_first_failure testAIConnection refusedProbe
              testSecurityConnection (connected fullConfig)) as (_ & Hsecond & _).
  apply (Hsecond (connected fullConfig)); reflexivity.
Defined.

(** X10. A capability that is not enabled is not probed.  With the AI
    section disabled or absent the AI probe has no influence on [connect];
    and with no capability enabled, as for the empty configuration,
    [connect] succeeds without running any probe, even probes that would
    throw. *)
Theorem disabled_capability_is_not_probed
    (probeAI probeAI' probeCompliance probeSecurity : Eff unit) (m : Machine) :
  (disabled (ai (config (this m))) ->
   connectVia probeAI probeCompliance probeSecurity m
   = connectVia probeAI' probeCompliance probeSecurity m) /\
  (disabled (ai (config (this m))) ->
   disabled (compliance (config (this m))) ->
   disabled (security (config (this m))) ->
   connectVia probeAI probeCompliance probeSecurity m = (Normal true, markConnected m)).
Proof.
  split.
  - intros Hai%disabled_truthy. rewrite !connectVia_stages.
    now rewrite !(stage_skipped ai) by exact Hai.
  - intros Hai%disabled_truthy Hco%disabled_truthy Hse%disabled_truthy.
    rewrite connectVia_stages.
    rewrite (stage_skipped ai) by exact Hai.
    rewrite (stage_skipped compliance) by exact Hco.
    now rewrite (stage_skipped security) by exact Hse.
Qed.

Lemma disabled_capability_is_not_probed_witness :
  connectVia refusedProbe refusedProbe refusedProbe (boot emptyConfig)
  = (Normal true, markConnected (boot emptyConfig)).
Proof.
  apply (proj2 (disabled_capability_is_not_probed refusedProbe refusedProbe
                  refusedProbe refusedProbe (boot emptyConfig)));
    left; reflexivity.
Defined.

Lemma after_effect (c : Call) (m : Machine) :
  after c m = if isConnect c then markConnected m else m.
Proof.
  destruct c; simpl.
  - now rewrite connect_run.
  - now rewrite aiRisk_run.
  - now rewrite aiTrade_run.
  - now rewrite compliance_run.
  - now rewrite security_run.
  - reflexivity.
  - reflexivity.
  - reflexivity.
Qed.

Lemma session_effect (calls : list Call) (m : Machine) :
  session calls m = if existsb isConnect calls then markConnected m else m.
Proof.
  revert m. induction calls as [| c calls IH]; intros m; [reflexivity |].
  change (session (c :: calls) m) with (session calls (after c m)).
  rewrite IH, after_effect. simpl.
  destruct (isConnect c); simpl; [| reflexivity].
  destruct (existsb isConnect calls); reflexivity.
Qed.

Lemma existsb_isConnect (calls : list Call) :
  existsb isConnect calls = true <-> In Connect calls.
Proof.
  rewrite existsb_exists. split.
  - intros (c & Hin & Hc). destruct c; try discriminate. exact Hin.
  - intros Hin. exists Connect. split; [exact Hin | reflexivity].
Qed.

(** X11. Over any session of calls of the public methods against one
    instance, in any order and with any arguments: the configuration never
    changes, nothing is ever written to the console, and the instance is
    connected at the end exactly when it was connected at the start or
    [connect] was called at least once.  No method ever disconnects. *)
Theorem session_invariant (calls : list Call) (m : Machine) :
  config (this (session calls m)) = config (this m) /\
  console (session calls m) = console m /\
  (isConnected (this (session calls m)) = true <->
   isConnected (this m) = true \/ In Connect calls).
Proof.
  rewrite session_effect, <- existsb_isConnect.
  destruct (existsb isConnect calls); simpl.
  - split; [reflexivity | split; [reflexivity |]]. split; auto.
  - split; [reflexivity | split; [reflexivity |]]. split; [auto |].
    intros [H | H]; [exact H | discriminate H].
Qed.

End GatewayExtProofs.
